(** * auladjangforms: the registration and listing views of the [app] package

    A shallow embedding of [app/urls.py] and [app/views.py].  The views are
    glue over the web framework: a request object, a model-backed form, the
    object manager of the [Usuario] model, the URL resolver and the
    [render] / [redirect] shortcuts.  The framework calls the views make
    are modelled as far as the views depend on them; [app/models.py],
    [app/forms.py] and the two templates are not among the sources and
    enter as parameters of the development. *)

From Stdlib Require Import String Ascii List Bool Arith Lia.
Import ListNotations.
Local Open Scope string_scope.
Local Open Scope list_scope.

(** ** Python exceptions and handlers with effects on the database *)

(** The exceptions the framework calls made by the views can raise. *)
Inductive Exception : Type :=
| ValueError (msg : string)
| NoReverseMatch (viewname : string).

(** How a call ends: it returns a value or raises. *)
Inductive Outcome (A : Type) : Type :=
| Returns (a : A)
| Raises (e : Exception).

Arguments Returns {A} a.
Arguments Raises {A} e.

(** A computation over a database of type [DB]: it ends with an outcome and
    leaves a database behind, also when it raises (the connection is in
    autocommit mode, nothing is rolled back). *)
Definition Eff (DB A : Type) : Type := DB -> Outcome A * DB.

Definition ret {DB A : Type} (a : A) : Eff DB A :=
  fun db => (Returns a, db).

Definition raise {DB A : Type} (e : Exception) : Eff DB A :=
  fun db => (Raises e, db).

Definition bind {DB A B : Type} (m : Eff DB A) (k : A -> Eff DB B) : Eff DB B :=
  fun db =>
    match m db with
    | (Returns a, db') => k a db'
    | (Raises e, db') => (Raises e, db')
    end.

Declare Scope eff_scope.
Delimit Scope eff_scope with eff.
Notation "x <- m ;; k" := (bind m (fun x => k))
  (at level 61, m at next level, right associativity) : eff_scope.
Notation "' p <- m ;; k" := (bind m (fun x => let p := x in k))
  (at level 61, p pattern, m at next level, right associativity) : eff_scope.
Notation "m ;;; k" := (bind m (fun _ => k))
  (at level 61, right associativity) : eff_scope.

(** ** Requests *)

(** A [QueryDict]: the submitted key/value pairs, in order, keys may repeat. *)
Definition QueryDict : Type := list (string * string).

(** What a view can read of an [HttpRequest]. *)
Record HttpRequest : Type := mkRequest {
  method : string;
  request_path : string;
  GET : QueryDict;
  POST : QueryDict;
  COOKIES : list (string * string);
  META : list (string * string)
}.

(** The same request sent under another method. *)
Definition with_method (m : string) (request : HttpRequest) : HttpRequest :=
  mkRequest m (request_path request) (GET request) (POST request)
    (COOKIES request) (META request).

(** An [ErrorDict]: field name to the messages raised for it;
    non-field errors are filed under the key ["__all__"]. *)
Definition ErrorDict : Type := list (string * list string).

(** Python truthiness of a dict: empty is false. *)
Definition truthy {A : Type} (d : list A) : bool :=
  match d with
  | [] => false
  | _ :: _ => true
  end.

(** ** app/urls.py *)

Module views_ref.
(** The two callables of [app/views.py], as [urls.py] refers to them. *)
Inductive View : Type :=
| cadastrar_usuario
| listar_usuarios.
End views_ref.

Module urls.

(** One [path(route, view, name=...)] entry. *)
Record URLPattern : Type := path {
  route : string;
  callback : views_ref.View;
  name : string
}.

Definition urlpatterns : list URLPattern :=
  [ path "cadastrar/" views_ref.cadastrar_usuario "cadastrar_usuario";
    path "usuarios/" views_ref.listar_usuarios "listar_usuarios" ].

(** The resolver over [urlpatterns]: the leading slash is consumed by the
    root pattern, the first entry whose route equals the rest wins (a
    [path()] route without converters matches the whole remaining path). *)
Definition resolve_in (patterns : list URLPattern) (p : string)
  : option views_ref.View :=
  match p with
  | String "/" rest =>
      option_map callback
        (find (fun u => String.eqb (route u) rest) patterns)
  | _ => None
  end.

Definition resolve : string -> option views_ref.View :=
  resolve_in urlpatterns.

(** [reverse(viewname)]: the URL of the entry registered under the name. *)
Definition reverse_in (patterns : list URLPattern) (viewname : string)
  : option string :=
  option_map (fun u => String "/" (route u))
    (find (fun u => String.eqb (name u) viewname) patterns).

Definition reverse : string -> option string :=
  reverse_in urlpatterns.

End urls.

(** ** The redirect shortcut *)

Fixpoint contains_char (c : ascii) (s : string) : bool :=
  match s with
  | EmptyString => false
  | String c' s' => Ascii.eqb c c' || contains_char c s'
  end.

(** [resolve_url(to)] for a string: a relative URL is kept, a name known to
    the URLconf is reversed, anything else that looks like a URL (it has a
    slash or a dot) is kept, and the rest raises [NoReverseMatch]. *)
Definition resolve_url {DB : Type} (to : string) : Eff DB string :=
  if String.prefix "./" to || String.prefix "../" to then ret to
  else
    match urls.reverse to with
    | Some url => ret url
    | None =>
        if negb (contains_char "/" to) && negb (contains_char "." to)
        then raise (NoReverseMatch to)
        else ret to
    end.

(** ** A sample model and form

    A concrete [Usuario] with a name and an e-mail address, and a form that
    requires the name and keeps e-mail addresses unique.  The views are
    generic in the model and the form; this instance is what the examples
    at the end of the file run them on. *)

Module Sample.

Record Usuario : Type := mkUsuario {
  nome : string;
  email : string
}.

Definition blank : Usuario := mkUsuario "" "".

(** [QueryDict.get(key, "")]: the last value submitted under the key. *)
Fixpoint get (key : string) (q : QueryDict) : string :=
  match q with
  | [] => ""
  | (k, v) :: q' =>
      if String.eqb k key && negb (existsb (fun kv => String.eqb (fst kv) key) q')
      then v
      else get key q'
  end.

Definition clean (db : list Usuario) (q : QueryDict) : ErrorDict * Usuario :=
  let u := mkUsuario (get "nome" q) (get "email" q) in
  ((if String.eqb (nome u) ""
    then [("nome", ["This field is required."])] else [])
   ++
   (if existsb (fun r => String.eqb (email r) (email u)) db
    then [("email", ["Usuario with this Email already exists."])] else []),
   u).

Definition post (n e : string) : HttpRequest :=
  mkRequest "POST" "/cadastrar/" [] [("nome", n); ("email", e)]
    [("csrftoken", "k3y")] [("REMOTE_ADDR", "127.0.0.1")].

Definition ana : HttpRequest := post "Ana" "ana@example.org".
Definition bia : HttpRequest := post "Bia" "bia@example.org".
Definition anonymous : HttpRequest := post "" "x@example.org".
Definition get_request : HttpRequest :=
  mkRequest "GET" "/cadastrar/" [] [] [] [].
Definition put_request : HttpRequest :=
  mkRequest "PUT" "/cadastrar/" [("page", "2")] [("nome", "Caio")] [] [].

End Sample.

(** ** The application: model, form, views *)

Section App.

(** [app/models.py] is not among the sources: the [Usuario] model is an
    opaque type, [Usuario_blank] the instance [Usuario()] a fresh form
    starts from. *)
Variable Usuario : Type.
Variable Usuario_blank : Usuario.

(** The table behind [Usuario.objects]: its rows in the order the
    database returns them when no ordering is asked for. *)
Definition Table : Type := list Usuario.

(** [app/forms.py] is not among the sources: the field and model
    validation of [UsuarioForm] is a parameter.  Given the table (model
    validation runs its uniqueness queries against it) and the submitted
    data it yields the errors found and the instance built from the
    cleaned data. *)
Variable UsuarioForm_clean : Table -> QueryDict -> ErrorDict * Usuario.

Local Open Scope eff_scope.

(** *** The object manager and [Model.save] *)

(** [Usuario.objects.all()]: every row; nothing is filtered, sliced or
    reordered. *)
Definition objects_all : Eff Table (list Usuario) :=
  fun db => (Returns db, db).

(** [instance.save()] of an instance without primary key: one INSERT. *)
Definition Model_save (u : Usuario) : Eff Table unit :=
  fun db => (Returns tt, db ++ [u]).

(** *** The form object *)

(** A [UsuarioForm] object.  [cached_errors] is the form's [_errors]
    attribute: [None] until the form has been cleaned. *)
Record ModelForm : Type := mkForm {
  is_bound : bool;
  data : QueryDict;
  cached_errors : option ErrorDict;
  instance : Usuario
}.

(** [UsuarioForm(data)], with [None] for the call without argument.  A
    form is bound as soon as data is passed, even an empty [QueryDict]. *)
Definition UsuarioForm (d : option QueryDict) : ModelForm :=
  match d with
  | Some q => mkForm true q None Usuario_blank
  | None => mkForm false [] None Usuario_blank
  end.

(** [form.full_clean()]: fills [_errors]; an unbound form is not
    validated and gets an empty [ErrorDict]. *)
Definition full_clean (form : ModelForm) : Eff Table ModelForm :=
  fun db =>
    if is_bound form then
      let (errs, inst) := UsuarioForm_clean db (data form) in
      (Returns (mkForm (is_bound form) (data form) (Some errs) inst), db)
    else
      (Returns (mkForm (is_bound form) (data form) (Some []) (instance form)),
       db).

(** The [form.errors] property: cleans the form on first access.  The
    form object is mutated, so the updated form is handed back. *)
Definition errors (form : ModelForm) : Eff Table (ErrorDict * ModelForm) :=
  match cached_errors form with
  | Some errs => ret (errs, form)
  | None =>
      form' <- full_clean form ;;
      ret (match cached_errors form' with Some errs => errs | None => [] end,
           form')
  end.

(** [form.is_valid()]: [self.is_bound and not self.errors]. *)
Definition is_valid (form : ModelForm) : Eff Table (bool * ModelForm) :=
  if is_bound form then
    '(errs, form') <- errors form ;;
    ret (negb (truthy errs), form')
  else ret (false, form).

(** [form.save()]: refuses a form with errors, otherwise saves the
    instance and returns it. *)
Definition save (form : ModelForm) : Eff Table (Usuario * ModelForm) :=
  '(errs, form') <- errors form ;;
  if truthy errs then
    raise (ValueError "The Usuario could not be created because the data didn't validate.")
  else
    Model_save (instance form') ;;;
    ret (instance form', form').

(** *** Responses *)

(** What a template is rendered with. *)
Inductive ContextValue : Type :=
| FormValue (form : ModelForm)
| QuerySetValue (rows : list Usuario).

Definition Context : Type := list (string * ContextValue).

(** Modelled from the spec: the templates [cadastrar_usuario.html] and
    [listar_usuarios.html] are not among the sources.  The spec describes
    the renderer as consuming named template files and their output as the
    rendered form (submitted values and error annotations) and the rendered
    list of all users, so a rendered response is represented by what the
    renderer was given: the request, the template's name and the context it
    is rendered with; a redirect by its target URL. *)
Inductive HttpResponse : Type :=
| Rendered (request : HttpRequest) (template_name : string) (context : Context)
| HttpResponseRedirect (url : string).

(** [render(request, template_name, context)]: the template rendered for
    the request with the context.  The request goes to the template engine
    with the rest, so the response is the rendering for that request. *)
Definition render (request : HttpRequest) (template_name : string)
    (context : Context) : Eff Table HttpResponse :=
  ret (Rendered request template_name context).

(** [redirect(to)]. *)
Definition redirect (to : string) : Eff Table HttpResponse :=
  url <- resolve_url to ;;
  ret (HttpResponseRedirect url).

(** *** app/views.py *)

(** The body of [cadastrar_usuario] up to its last statement: either a
    [return] was executed inside the branches ([inl]), or control falls
    through with [form] assigned ([inr]). *)
Definition cadastrar_usuario_branches (request : HttpRequest)
  : Eff Table (HttpResponse + ModelForm) :=
  if String.eqb (method request) "POST" then
    let form := UsuarioForm (Some (POST request)) in
    '(valid, form) <- is_valid form ;;
    if (valid : bool) then
      save form ;;;
      response <- redirect "listar_usuarios" ;;
      ret (inl response)
    else ret (inr form)
  else
    let form := UsuarioForm None in
    ret (inr form).

Definition cadastrar_usuario (request : HttpRequest)
  : Eff Table HttpResponse :=
  flow <- cadastrar_usuario_branches request ;;
  match flow with
  | inl response => ret response
  | inr form =>
      render request "cadastrar_usuario.html" [("form", FormValue form)]
  end.

Definition listar_usuarios (request : HttpRequest)
  : Eff Table HttpResponse :=
  usuarios <- objects_all ;;
  render request "listar_usuarios.html" [("usuarios", QuerySetValue usuarios)].

(** *** Dispatch *)

Definition call_view (v : views_ref.View)
  : HttpRequest -> Eff Table HttpResponse :=
  match v with
  | views_ref.cadastrar_usuario => cadastrar_usuario
  | views_ref.listar_usuarios => listar_usuarios
  end.

(** *** Running requests *)

(** Whether the data would pass [is_valid()] against the table. *)
Definition validates (db : Table) (q : QueryDict) : bool :=
  match is_valid (UsuarioForm (Some q)) db with
  | (Returns (valid, _), _) => valid
  | (Raises _, _) => false
  end.

(** The instance a valid submission of the data creates. *)
Definition submitted (db : Table) (q : QueryDict) : Usuario :=
  snd (UsuarioForm_clean db q).

(** *** Sequences of requests *)

(** Whether a response is a redirect. *)
Definition is_redirect (response : HttpResponse) : bool :=
  match response with
  | HttpResponseRedirect _ => true
  | Rendered _ _ _ => false
  end.

(** A response apart from the request it was rendered for: the template
    and the context of a rendering, or the target of a redirect. *)
Definition without_request (response : HttpResponse)
  : (string * Context) + string :=
  match response with
  | Rendered _ template_name context => inl (template_name, context)
  | HttpResponseRedirect url => inr url
  end.

(** Whether a call is a POST to the registration view. *)
Definition is_registration_post (call : views_ref.View * HttpRequest) : bool :=
  match fst call with
  | views_ref.cadastrar_usuario => String.eqb (method (snd call)) "POST"
  | views_ref.listar_usuarios => false
  end.

(** Whether a call goes to the registration view. *)
Definition to_registration (call : views_ref.View * HttpRequest) : bool :=
  match fst call with
  | views_ref.cadastrar_usuario => true
  | views_ref.listar_usuarios => false
  end.

(** The views called one request after the other, each on the table the
    one before left; the responses in order.  A view that raises ends the
    run. *)
Fixpoint serve (calls : list (views_ref.View * HttpRequest))
  : Eff Table (list HttpResponse) :=
  match calls with
  | [] => ret []
  | (v, request) :: calls' =>
      response <- call_view v request ;;
      responses <- serve calls' ;;
      ret (response :: responses)
  end.

(** ** Properties of the views *)

(** *** Laws of the effect layer *)

Lemma bind_ret {A B : Type} (a : A) (k : A -> Eff Table B) (db : Table) :
  bind (ret a) k db = k a db.
Proof. reflexivity. Qed.

Lemma bind_returns {A B : Type} (m : Eff Table A) (k : A -> Eff Table B)
    (db db' : Table) (a : A) :
  m db = (Returns a, db') -> bind m k db = k a db'.
Proof. intros E. unfold bind. rewrite E. reflexivity. Qed.

Lemma bind_raises {A B : Type} (m : Eff Table A) (k : A -> Eff Table B)
    (db db' : Table) (e : Exception) :
  m db = (Raises e, db') -> bind m k db = (Raises e, db').
Proof. intros E. unfold bind. rewrite E. reflexivity. Qed.

(** *** The framework calls *)

Lemma truthy_false {A : Type} (d : list A) : truthy d = false <-> d = [].
Proof. destruct d; simpl; split; congruence. Qed.

(** Validating a freshly bound form cleans it once, against the table as
    it stands, and leaves the table alone. *)
Lemma is_valid_bound (q : QueryDict) (db : Table) :
  is_valid (UsuarioForm (Some q)) db =
    (Returns (negb (truthy (fst (UsuarioForm_clean db q))),
              mkForm true q (Some (fst (UsuarioForm_clean db q)))
                     (snd (UsuarioForm_clean db q))),
     db).
Proof.
  unfold is_valid, errors, full_clean, bind, ret; simpl.
  destruct (UsuarioForm_clean db q) as [errs u]; reflexivity.
Qed.

(** Saving a cleaned form without errors inserts its instance. *)
Lemma save_cleaned (q : QueryDict) (u : Usuario) (db : Table) :
  save (mkForm true q (Some []) u) db =
    (Returns (u, mkForm true q (Some []) u), db ++ [u]).
Proof. reflexivity. Qed.

(** Saving a form with errors raises and inserts nothing. *)
Lemma save_with_errors (q : QueryDict) (errs : ErrorDict) (u : Usuario)
    (db : Table) :
  errs <> [] ->
  exists msg, save (mkForm true q (Some errs) u) db = (Raises (ValueError msg), db).
Proof.
  intros H. destruct errs as [|e errs]; [congruence|].
  eexists. reflexivity.
Qed.

(** The name the registration view redirects to is registered. *)
Lemma redirect_listar_usuarios (db : Table) :
  redirect "listar_usuarios" db = (Returns (HttpResponseRedirect "/usuarios/"), db).
Proof. reflexivity. Qed.

(** *** The registration view, branch by branch *)

Lemma cadastrar_usuario_post (request : HttpRequest) (db : Table) :
  method request = "POST" ->
  cadastrar_usuario request db =
    match UsuarioForm_clean db (POST request) with
    | ([], u) => (Returns (HttpResponseRedirect "/usuarios/"), db ++ [u])
    | (errs, u) =>
        (Returns (Rendered request "cadastrar_usuario.html"
                    [("form", FormValue (mkForm true (POST request) (Some errs) u))]),
         db)
    end.
Proof.
  intros Hm.
  unfold cadastrar_usuario, cadastrar_usuario_branches.
  rewrite Hm; simpl String.eqb; cbv iota.
  unfold bind at 1. unfold bind at 1.
  rewrite is_valid_bound.
  destruct (UsuarioForm_clean db (POST request)) as [errs u]; simpl fst; simpl snd.
  destruct errs as [|e errs]; reflexivity.
Qed.

Lemma cadastrar_usuario_not_post (request : HttpRequest) (db : Table) :
  method request <> "POST" ->
  cadastrar_usuario request db =
    (Returns (Rendered request "cadastrar_usuario.html"
                [("form", FormValue (UsuarioForm None))]),
     db).
Proof.
  intros Hm.
  unfold cadastrar_usuario, cadastrar_usuario_branches.
  destruct (String.eqb_spec (method request) "POST") as [E|_]; [contradiction|].
  reflexivity.
Qed.

Lemma listar_usuarios_eq (request : HttpRequest) (db : Table) :
  listar_usuarios request db =
    (Returns (Rendered request "listar_usuarios.html" [("usuarios", QuerySetValue db)]),
     db).
Proof. reflexivity. Qed.

Lemma validates_clean (db : Table) (q : QueryDict) :
  validates db q = negb (truthy (fst (UsuarioForm_clean db q))).
Proof. unfold validates. rewrite is_valid_bound. reflexivity. Qed.

Lemma validates_true (db : Table) (q : QueryDict) :
  validates db q = true <-> fst (UsuarioForm_clean db q) = [].
Proof.
  rewrite validates_clean, negb_true_iff. apply truthy_false.
Qed.

Lemma validates_false (db : Table) (q : QueryDict) :
  validates db q = false <-> fst (UsuarioForm_clean db q) <> [].
Proof.
  rewrite validates_clean, negb_false_iff.
  destruct (fst (UsuarioForm_clean db q)); simpl; split; congruence.
Qed.

(** A valid POST, as one equation. *)
Lemma cadastrar_usuario_post_valid (request : HttpRequest) (db : Table) :
  method request = "POST" ->
  validates db (POST request) = true ->
  cadastrar_usuario request db =
    (Returns (HttpResponseRedirect "/usuarios/"),
     db ++ [submitted db (POST request)]).
Proof.
  intros Hm Hv. apply validates_true in Hv.
  rewrite (cadastrar_usuario_post _ _ Hm). unfold submitted.
  destruct (UsuarioForm_clean db (POST request)) as [errs u].
  simpl in Hv. subst errs. reflexivity.
Qed.

(** An invalid POST, as one equation. *)
Lemma cadastrar_usuario_post_invalid (request : HttpRequest) (db : Table) :
  method request = "POST" ->
  validates db (POST request) = false ->
  cadastrar_usuario request db =
    (Returns (Rendered request "cadastrar_usuario.html"
                [("form", FormValue
                            (mkForm true (POST request)
                               (Some (fst (UsuarioForm_clean db (POST request))))
                               (submitted db (POST request))))]),
     db).
Proof.
  intros Hm Hv. apply validates_false in Hv.
  rewrite (cadastrar_usuario_post _ _ Hm). unfold submitted.
  destruct (UsuarioForm_clean db (POST request)) as [errs u].
  simpl in *. destruct errs; [congruence | reflexivity].
Qed.

(** *** The claims *)

(** C1.  A POST whose data passes the form's validation inserts exactly
    one row, the instance built from the submitted data, after the rows
    already there (which are kept as they are), and answers with a
    redirect to the URL that resolves to the listing view. *)
Theorem cadastrar_usuario_valid_post_saves_and_redirects
    (request : HttpRequest) (db : Table) :
  method request = "POST" ->
  validates db (POST request) = true ->
  exists url db',
    cadastrar_usuario request db = (Returns (HttpResponseRedirect url), db')
    /\ urls.resolve url = Some views_ref.listar_usuarios
    /\ db' = db ++ [submitted db (POST request)]
    /\ length db' = S (length db).
Proof.
  intros Hm Hv.
  exists "/usuarios/", (db ++ [submitted db (POST request)]).
  split; [now apply cadastrar_usuario_post_valid|].
  split; [reflexivity|]. split; [reflexivity|].
  rewrite length_app. simpl. lia.
Qed.

(** C2.  A POST whose data fails the form's validation leaves the table
    as it was and returns, without raising, the registration template
    rendered with the bound form: the form holds the submitted data and a
    non-empty error dictionary. *)
Theorem cadastrar_usuario_invalid_post_rerenders_form
    (request : HttpRequest) (db : Table) :
  method request = "POST" ->
  validates db (POST request) = false ->
  exists form errs,
    cadastrar_usuario request db =
      (Returns (Rendered request "cadastrar_usuario.html" [("form", FormValue form)]),
       db)
    /\ is_bound form = true
    /\ data form = POST request
    /\ cached_errors form = Some errs
    /\ errs = fst (UsuarioForm_clean db (POST request))
    /\ errs <> [].
Proof.
  intros Hm Hv.
  eexists; eexists.
  split; [now apply cadastrar_usuario_post_invalid|].
  simpl. repeat split.
  now apply validates_false.
Qed.

(** C3.  The listing view renders its template with every row of the
    table, as the table holds them: none dropped, none added, none moved.
    In particular, after two valid registrations the rendered rows hold
    both created records. *)
Theorem listar_usuarios_lists_every_record
    (request : HttpRequest) (db : Table) :
  listar_usuarios request db =
    (Returns (Rendered request "listar_usuarios.html" [("usuarios", QuerySetValue db)]),
     db)
  /\
  forall (reqA reqB : HttpRequest),
    method reqA = "POST" ->
    method reqB = "POST" ->
    validates db (POST reqA) = true ->
    let a := submitted db (POST reqA) in
    validates (db ++ [a]) (POST reqB) = true ->
    let b := submitted (db ++ [a]) (POST reqB) in
    exists rows db',
      (cadastrar_usuario reqA ;;;
       cadastrar_usuario reqB ;;;
       listar_usuarios request) db =
        (Returns (Rendered request "listar_usuarios.html"
                    [("usuarios", QuerySetValue rows)]),
         db')
      /\ In a rows /\ In b rows.
Proof.
  split; [reflexivity|].
  intros reqA reqB HmA HmB HvA a HvB b.
  exists (db ++ [a] ++ [b]), (db ++ [a] ++ [b]).
  split.
  - rewrite (bind_returns _ _ _ _ _ (cadastrar_usuario_post_valid _ _ HmA HvA)).
    fold a.
    rewrite (bind_returns _ _ _ _ _ (cadastrar_usuario_post_valid _ _ HmB HvB)).
    fold b.
    rewrite listar_usuarios_eq, <- app_assoc. reflexivity.
  - split; apply in_or_app; right; simpl; auto.
Qed.

(** C4.  A GET to the registration view leaves the table as it was and
    renders the registration template with an unbound form: no data, not
    cleaned. *)
Theorem cadastrar_usuario_get_renders_unbound_form
    (request : HttpRequest) (db : Table) :
  method request = "GET" ->
  exists form,
    cadastrar_usuario request db =
      (Returns (Rendered request "cadastrar_usuario.html" [("form", FormValue form)]),
       db)
    /\ form = UsuarioForm None
    /\ is_bound form = false
    /\ data form = []
    /\ cached_errors form = None.
Proof.
  intros Hm. exists (UsuarioForm None).
  split; [|repeat split].
  apply cadastrar_usuario_not_post. rewrite Hm. discriminate.
Qed.

(** C5.  On an empty table the listing view returns, without raising, its
    template rendered with no rows. *)
Theorem listar_usuarios_empty_table (request : HttpRequest) :
  listar_usuarios request [] =
    (Returns (Rendered request "listar_usuarios.html" [("usuarios", QuerySetValue [])]),
     []).
Proof. reflexivity. Qed.

(** C6.  The listing view is read-only: whatever the request and the
    table, the table after the view has run is the table before. *)
Theorem listar_usuarios_read_only (request : HttpRequest) (db : Table) :
  snd (listar_usuarios request db) = db.
Proof. rewrite listar_usuarios_eq. reflexivity. Qed.

(** C7.  The URLconf has two entries: [cadastrar/] leads to the
    registration view and [usuarios/] to the listing view, and no other
    path resolves.  (The resolver is given the path with the leading
    slash the root pattern consumes.) *)
Theorem urlpatterns_two_routes :
  (forall p : string,
      urls.resolve p =
        if String.eqb p "/cadastrar/" then Some views_ref.cadastrar_usuario
        else if String.eqb p "/usuarios/" then Some views_ref.listar_usuarios
        else None)
  /\ option_map call_view (urls.resolve "/cadastrar/") = Some cadastrar_usuario
  /\ option_map call_view (urls.resolve "/usuarios/") = Some listar_usuarios
  /\ map urls.route urls.urlpatterns = ["cadastrar/"; "usuarios/"].
Proof.
  split; [|repeat split].
  intros [|c rest]; [reflexivity|].
  destruct (Ascii.eqb_spec c "/") as [->|Hc].
  - unfold urls.resolve, urls.resolve_in, urls.urlpatterns.
    cbn [find option_map urls.route urls.callback].
    change (String.eqb (String "/" rest) "/cadastrar/")
      with (String.eqb rest "cadastrar/").
    change (String.eqb (String "/" rest) "/usuarios/")
      with (String.eqb rest "usuarios/").
    rewrite (String.eqb_sym "cadastrar/"), (String.eqb_sym "usuarios/").
    destruct (String.eqb rest "cadastrar/"); [reflexivity|].
    destruct (String.eqb rest "usuarios/"); reflexivity.
  - assert (E : Ascii.eqb c "/" = false) by now apply Ascii.eqb_neq.
    cbn [String.eqb]. rewrite E.
    destruct c as [[] [] [] [] [] [] [] []]; try reflexivity.
    discriminate E.
Qed.

(** C8.  Under any method other than POST and GET the registration view
    does what it does under GET: the table is left as it was and the
    registration template is rendered, for the request at hand, with an
    unbound form; the same request sent under GET gets the same template,
    the same context and the same table. *)
Theorem cadastrar_usuario_other_method_like_get
    (request : HttpRequest) (db : Table) :
  method request <> "POST" ->
  method request <> "GET" ->
  cadastrar_usuario (with_method "GET" request) db =
    (Returns (Rendered (with_method "GET" request) "cadastrar_usuario.html"
                [("form", FormValue (UsuarioForm None))]),
     db)
  /\ cadastrar_usuario request db =
       (Returns (Rendered request "cadastrar_usuario.html"
                   [("form", FormValue (UsuarioForm None))]),
        db)
  /\ is_bound (UsuarioForm None) = false.
Proof.
  intros Hp _.
  rewrite (cadastrar_usuario_not_post _ _ Hp).
  rewrite cadastrar_usuario_not_post by (simpl; discriminate).
  repeat split.
Qed.


(** C10.  Both views are total: whatever the method, the payload and the
    table, the view returns a response; no path raises and none ends
    without a response. *)
Theorem views_always_return
    (v : views_ref.View) (request : HttpRequest) (db : Table) :
  exists response db',
    call_view v request db = (Returns response, db').
Proof.
  destruct v; simpl.
  - destruct (String.eqb_spec (method request) "POST") as [Hm|Hm].
    + rewrite (cadastrar_usuario_post _ _ Hm).
      destruct (UsuarioForm_clean db (POST request)) as [[|e errs] u];
        eexists; eexists; reflexivity.
    + rewrite (cadastrar_usuario_not_post _ _ Hm).
      eexists; eexists; reflexivity.
  - rewrite listar_usuarios_eq. eexists; eexists; reflexivity.
Qed.

(** *** Further properties of the views and the URLconf *)

(** One call of a view: it returns; the table grows by the submitted
    instance when the response is a redirect and is left alone otherwise;
    and a redirect only answers a POST to the registration view. *)
Lemma call_view_step (v : views_ref.View) (request : HttpRequest) (db : Table) :
  exists response,
    call_view v request db =
      (Returns response,
       if is_redirect response then db ++ [submitted db (POST request)] else db)
    /\ (is_redirect response = true ->
        is_registration_post (v, request) = true
        /\ validates db (POST request) = true).
Proof.
  destruct v; simpl call_view.
  - destruct (String.eqb_spec (method request) "POST") as [Hm|Hm].
    + destruct (validates db (POST request)) eqn:Hv.
      * exists (HttpResponseRedirect "/usuarios/"). split.
        -- now rewrite (cadastrar_usuario_post_valid _ _ Hm Hv).
        -- intros _. unfold is_registration_post; simpl.
           rewrite Hm. split; reflexivity.
      * rewrite (cadastrar_usuario_post_invalid _ _ Hm Hv).
        eexists (Rendered _ _ _). split; [reflexivity|discriminate].
    + rewrite (cadastrar_usuario_not_post _ _ Hm).
      eexists (Rendered _ _ _). split; [reflexivity|discriminate].
  - rewrite listar_usuarios_eq.
    eexists (Rendered _ _ _). split; [reflexivity|discriminate].
Qed.

(** X1.  The response of the registration view tells whether a row was
    written: it is a redirect exactly when the request is a POST with
    valid data, in which case the submitted instance was appended;
    otherwise it is the registration template and the table is as before. *)
Theorem cadastrar_usuario_redirect_iff_saved
    (request : HttpRequest) (db : Table) :
  exists response db',
    cadastrar_usuario request db = (Returns response, db')
    /\ (is_redirect response = true <->
        method request = "POST" /\ validates db (POST request) = true)
    /\ (is_redirect response = true ->
        db' = db ++ [submitted db (POST request)])
    /\ (is_redirect response = false ->
        db' = db
        /\ exists context,
             response = Rendered request "cadastrar_usuario.html" context).
Proof.
  destruct (String.eqb_spec (method request) "POST") as [Hm|Hm].
  - destruct (validates db (POST request)) eqn:Hv.
    + exists (HttpResponseRedirect "/usuarios/"),
             (db ++ [submitted db (POST request)]).
      split; [now apply cadastrar_usuario_post_valid|].
      simpl. repeat split; try discriminate; auto.
    + eexists; exists db.
      split; [now apply cadastrar_usuario_post_invalid|].
      simpl. repeat split; try discriminate; eauto.
      intros [_ H]; discriminate H.
  - eexists; exists db.
    split; [now apply cadastrar_usuario_not_post|].
    simpl. repeat split; try discriminate; eauto.
    intros [H _]; contradiction.
Qed.

(** X2.  Nothing but a valid POST to the registration view writes: when a
    call of either view leaves a table different from the one it found,
    the view was the registration view, the method POST and the data
    valid. *)
Theorem only_valid_registration_post_writes
    (v : views_ref.View) (request : HttpRequest) (db : Table) :
  snd (call_view v request db) <> db ->
  v = views_ref.cadastrar_usuario
  /\ method request = "POST"
  /\ validates db (POST request) = true.
Proof.
  intros Hchg.
  destruct (call_view_step v request db) as (response & E & Hr).
  rewrite E in Hchg. simpl in Hchg.
  destruct (is_redirect response); [|contradiction].
  destruct (Hr eq_refl) as [Hp Hv].
  unfold is_registration_post in Hp; simpl in Hp.
  destruct v; [|discriminate].
  repeat split; auto. now apply String.eqb_eq.
Qed.

(** X3.  Of a request the registration view itself reads the method and
    the POST data and nothing else: two requests that agree on both get the
    same redirect, or the same template rendered with the same context,
    and leave the same table, whatever their path, query string, cookies
    and headers.  The rest of a request reaches the response only through
    [render], to which the view hands the request. *)
Theorem cadastrar_usuario_reads_method_and_POST
    (request1 request2 : HttpRequest) (db : Table) :
  method request1 = method request2 ->
  POST request1 = POST request2 ->
  exists response1 response2 db',
    cadastrar_usuario request1 db = (Returns response1, db')
    /\ cadastrar_usuario request2 db = (Returns response2, db')
    /\ without_request response1 = without_request response2.
Proof.
  intros Hm Hp.
  destruct (String.eqb_spec (method request1) "POST") as [H1|H1].
  - assert (H2 : method request2 = "POST") by congruence.
    rewrite (cadastrar_usuario_post _ _ H1), (cadastrar_usuario_post _ _ H2), Hp.
    destruct (UsuarioForm_clean db (POST request2)) as [[|e errs] u];
      do 3 eexists; repeat split.
  - assert (H2 : method request2 <> "POST") by congruence.
    rewrite (cadastrar_usuario_not_post _ _ H1), (cadastrar_usuario_not_post _ _ H2).
    do 3 eexists; repeat split.
Qed.

(** X4.  Over any sequence of requests to the two views every request is
    answered, the rows found at the start are still there, in place and
    unchanged, and the number of rows added is the number of redirects
    among the responses, which is at most the number of POSTs to the
    registration view. *)
Theorem serve_appends_one_row_per_redirect
    (calls : list (views_ref.View * HttpRequest)) (db : Table) :
  exists responses added,
    serve calls db = (Returns responses, db ++ added)
    /\ length responses = length calls
    /\ length added = length (filter is_redirect responses)
    /\ length added <= length (filter is_registration_post calls).
Proof.
  revert db. induction calls as [|[v request] calls IH]; intros db.
  - exists [], []. rewrite app_nil_r. repeat split; simpl; lia.
  - destruct (call_view_step v request db) as (response & E & Hr).
    remember (if is_redirect response
              then db ++ [submitted db (POST request)] else db) as db1 eqn:Edb1.
    destruct (IH db1) as (responses & added & E1 & Hlen & Hadd & Hle).
    cbn [serve].
    rewrite (bind_returns _ _ _ _ _ E), (bind_returns _ _ _ _ _ E1).
    destruct (is_redirect response) eqn:Hred; subst db1.
    + exists (response :: responses), (submitted db (POST request) :: added).
      destruct (Hr eq_refl) as [Hp _].
      cbn [filter]. rewrite Hred, Hp, <- app_assoc. simpl.
      repeat split; lia.
    + exists (response :: responses), added.
      cbn [filter]. rewrite Hred.
      destruct (is_registration_post (v, request)); simpl; repeat split; lia.
Qed.

(** X5.  Post, redirect, get: after a valid POST the URL of the redirect
    resolves to a view that, called with any request, renders the listing
    template with the rows found before followed by the new record. *)
Theorem valid_post_then_redirect_target_lists_new_record
    (request follow : HttpRequest) (db : Table) :
  method request = "POST" ->
  validates db (POST request) = true ->
  exists url v db',
    cadastrar_usuario request db = (Returns (HttpResponseRedirect url), db')
    /\ urls.resolve url = Some v
    /\ call_view v follow db' =
         (Returns (Rendered follow "listar_usuarios.html"
                     [("usuarios",
                       QuerySetValue (db ++ [submitted db (POST request)]))]),
          db').
Proof.
  intros Hm Hv.
  exists "/usuarios/", views_ref.listar_usuarios,
         (db ++ [submitted db (POST request)]).
  split; [now apply cadastrar_usuario_post_valid|].
  split; reflexivity.
Qed.

(** In a URLconf whose routes are pairwise different a route resolves to
    the entry it was taken from. *)
Lemma find_route_unique (patterns : list urls.URLPattern) (u : urls.URLPattern) :
  NoDup (map urls.route patterns) ->
  In u patterns ->
  find (fun x => String.eqb (urls.route x) (urls.route u)) patterns = Some u.
Proof.
  induction patterns as [|x patterns IH]; intros Hnd Hin; [contradiction|].
  simpl in Hnd. inversion Hnd as [|r rs Hnotin Hnd']; subst.
  simpl. destruct Hin as [->|Hin].
  - rewrite String.eqb_refl. reflexivity.
  - destruct (String.eqb_spec (urls.route x) (urls.route u)) as [E|_].
    + exfalso. apply Hnotin. rewrite E. now apply in_map.
    + now apply IH.
Qed.

(** Reversing a name and resolving the URL obtained leads to the view of
    the entry of that name, in any URLconf with pairwise different routes. *)
Lemma reverse_in_resolve_in (patterns : list urls.URLPattern)
    (viewname url : string) :
  NoDup (map urls.route patterns) ->
  urls.reverse_in patterns viewname = Some url ->
  exists u,
    In u patterns /\ urls.name u = viewname
    /\ url = String "/" (urls.route u)
    /\ urls.resolve_in patterns url = Some (urls.callback u).
Proof.
  intros Hnd Hrev. unfold urls.reverse_in in Hrev.
  destruct (find (fun u => String.eqb (urls.name u) viewname) patterns)
    as [u|] eqn:Hfind; [|discriminate].
  apply find_some in Hfind. destruct Hfind as [Hin Hname].
  apply String.eqb_eq in Hname.
  simpl in Hrev. injection Hrev as <-.
  exists u. repeat split; auto.
  unfold urls.resolve_in. rewrite (find_route_unique _ _ Hnd Hin). reflexivity.
Qed.

(** X6.  Names and paths of the URLconf agree: a name that reverses,
    reverses to a URL that resolves to the view entered under that name,
    and every path that resolves is the reverse of a name. *)
Theorem urlpatterns_reverse_then_resolve :
  (forall viewname url : string,
      urls.reverse viewname = Some url ->
      exists u,
        In u urls.urlpatterns /\ urls.name u = viewname
        /\ urls.resolve url = Some (urls.callback u))
  /\
  (forall (p : string) (v : views_ref.View),
      urls.resolve p = Some v ->
      exists viewname, urls.reverse viewname = Some p).
Proof.
  split.
  - intros viewname url Hrev.
    assert (Hnd : NoDup (map urls.route urls.urlpatterns)).
    { simpl. repeat constructor; simpl; intuition discriminate. }
    destruct (reverse_in_resolve_in _ _ _ Hnd Hrev) as (u & Hin & Hn & _ & Hres).
    exists u. auto.
  - intros p v Hres. unfold urls.resolve, urls.resolve_in in Hres.
    destruct p as [|c rest]; [discriminate|].
    destruct (Ascii.eqb_spec c "/") as [->|Hc].
    + destruct (find (fun u => String.eqb (urls.route u) rest) urls.urlpatterns)
        as [u|] eqn:Hfind; [|discriminate].
      apply find_some in Hfind. destruct Hfind as [Hin Hroute].
      apply String.eqb_eq in Hroute. subst rest.
      simpl in Hin. destruct Hin as [<-|[<-|[]]].
      * exists "cadastrar_usuario". reflexivity.
      * exists "listar_usuarios". reflexivity.
    + exfalso.
      destruct c as [[] [] [] [] [] [] [] []]; try discriminate Hres.
      now apply Hc.
Qed.

(** X7.  Listing requests are invisible to the rest of a sequence of
    requests: with the listing requests left out, the registration requests
    get the same responses as before and the same table is left. *)
Theorem serve_without_listing_requests
    (calls : list (views_ref.View * HttpRequest)) (db : Table) :
  exists responses responses' db',
    serve calls db = (Returns responses, db')
    /\ serve (filter to_registration calls) db = (Returns responses', db')
    /\ responses' =
         map snd (filter (fun cr => to_registration (fst cr))
                    (combine calls responses)).
Proof.
  revert db. induction calls as [|[v request] calls IH]; intros db.
  - exists [], [], db. repeat split.
  - destruct (call_view_step v request db) as (response & E & _).
    remember (if is_redirect response
              then db ++ [submitted db (POST request)] else db) as db1 eqn:Edb1.
    destruct v.
    + destruct (IH db1) as (responses & responses' & db' & E1 & E2 & Hr).
      exists (response :: responses), (response :: responses'), db'.
      cbn [filter to_registration fst serve combine map snd].
      rewrite !(bind_returns _ _ _ _ _ E), (bind_returns _ _ _ _ _ E1),
        (bind_returns _ _ _ _ _ E2).
      subst responses'. repeat split.
    + simpl call_view in E. rewrite listar_usuarios_eq in E.
      injection E as <- Hdb. simpl in Edb1. subst db1.
      destruct (IH db) as (responses & responses' & db' & E1 & E2 & Hr).
      exists (Rendered request "listar_usuarios.html" [("usuarios", QuerySetValue db)]
                :: responses), responses', db'.
      cbn [filter to_registration fst serve combine map snd call_view].
      rewrite (bind_returns _ _ _ _ _ (listar_usuarios_eq request db)),
        (bind_returns _ _ _ _ _ E1).
      repeat split; assumption.
Qed.

End App.


(** ** The views on the sample model *)

Arguments mkForm {Usuario} is_bound data cached_errors instance.
Arguments is_bound {Usuario} m.
Arguments data {Usuario} m.
Arguments cached_errors {Usuario} m.
Arguments instance {Usuario} m.
Arguments UsuarioForm {Usuario} Usuario_blank d.
Arguments FormValue {Usuario} form.
Arguments QuerySetValue {Usuario} rows.
Arguments Rendered {Usuario} request template_name context.
Arguments without_request {Usuario} response.
Arguments HttpResponseRedirect {Usuario} url.
Arguments cadastrar_usuario {Usuario} Usuario_blank UsuarioForm_clean request _.
Arguments listar_usuarios {Usuario} request _.
Arguments call_view {Usuario} Usuario_blank UsuarioForm_clean v _ _.
Arguments validates {Usuario} Usuario_blank UsuarioForm_clean db q.
Arguments submitted {Usuario} UsuarioForm_clean db q.
Arguments save {Usuario} UsuarioForm_clean form _.

Local Open Scope eff_scope.

Local Abbreviation cadastrar := (cadastrar_usuario Sample.blank Sample.clean).
Local Abbreviation valid := (validates Sample.blank Sample.clean).
Local Abbreviation Ana := (Sample.mkUsuario "Ana" "ana@example.org").
Local Abbreviation Bia := (Sample.mkUsuario "Bia" "bia@example.org").

Example cadastrar_ana :
  cadastrar Sample.ana [Bia] = (Returns (HttpResponseRedirect "/usuarios/"), [Bia; Ana]).
Proof. reflexivity. Qed.

Example cadastrar_ana_twice :
  (cadastrar Sample.ana ;;; cadastrar Sample.ana) [] =
    (Returns (Rendered Sample.ana "cadastrar_usuario.html"
                [("form",
                  FormValue
                    (mkForm true (POST Sample.ana)
                       (Some [("email", ["Usuario with this Email already exists."])])
                       Ana))]),
     [Ana]).
Proof. reflexivity. Qed.

Example cadastrar_anonymous :
  cadastrar Sample.anonymous [Ana] =
    (Returns (Rendered Sample.anonymous "cadastrar_usuario.html"
                [("form",
                  FormValue
                    (mkForm true (POST Sample.anonymous)
                       (Some [("nome", ["This field is required."])])
                       (Sample.mkUsuario "" "x@example.org")))]),
     [Ana]).
Proof. reflexivity. Qed.

Example cadastrar_put :
  cadastrar Sample.put_request [Ana] =
    (Returns (Rendered Sample.put_request "cadastrar_usuario.html"
                [("form", FormValue (mkForm false [] None Sample.blank))]),
     [Ana]).
Proof. reflexivity. Qed.

Example listar_two :
  listar_usuarios Sample.put_request [Ana; Bia] =
    (Returns (Rendered Sample.put_request "listar_usuarios.html"
                [("usuarios", QuerySetValue [Ana; Bia])]),
     [Ana; Bia]).
Proof. reflexivity. Qed.

Example redirect_unknown_name_raises :
  redirect Sample.Usuario "lista" [] = (Raises (NoReverseMatch "lista"), []).
Proof. reflexivity. Qed.

Example save_unvalidated_raises :
  fst (save Sample.clean (UsuarioForm Sample.blank (Some (POST Sample.anonymous))) [Ana])
  = Raises (ValueError "The Usuario could not be created because the data didn't validate.")
  /\ snd (save Sample.clean (UsuarioForm Sample.blank (Some (POST Sample.anonymous))) [Ana])
     = [Ana].
Proof. split; reflexivity. Qed.

(** C1 on the sample: Ana registers into a table that holds Bia. *)
Lemma cadastrar_usuario_valid_post_sample :
  method Sample.ana = "POST"
  /\ valid [Bia] (POST Sample.ana) = true
  /\ exists url db',
       cadastrar Sample.ana [Bia] = (Returns (HttpResponseRedirect url), db')
       /\ urls.resolve url = Some views_ref.listar_usuarios
       /\ db' = [Bia] ++ [submitted Sample.clean [Bia] (POST Sample.ana)]
       /\ length db' = S (length [Bia]).
Proof.
  refine (conj eq_refl (conj eq_refl _)).
  apply (cadastrar_usuario_valid_post_saves_and_redirects
           _ Sample.blank Sample.clean Sample.ana [Bia]); reflexivity.
Defined.

(** C2 on the sample: a submission without a name is turned down. *)
Lemma cadastrar_usuario_invalid_post_sample :
  method Sample.anonymous = "POST"
  /\ valid [Ana] (POST Sample.anonymous) = false
  /\ exists form errs,
       cadastrar Sample.anonymous [Ana] =
         (Returns (Rendered Sample.anonymous "cadastrar_usuario.html"
                     [("form", FormValue form)]),
          [Ana])
       /\ is_bound form = true
       /\ data form = POST Sample.anonymous
       /\ cached_errors form = Some errs
       /\ errs = fst (Sample.clean [Ana] (POST Sample.anonymous))
       /\ errs <> [].
Proof.
  refine (conj eq_refl (conj eq_refl _)).
  apply (cadastrar_usuario_invalid_post_rerenders_form
           _ Sample.blank Sample.clean Sample.anonymous [Ana]); reflexivity.
Defined.

(** C3 on the sample: Ana and Bia register one after the other into an
    empty table and are both listed. *)
Lemma listar_usuarios_lists_every_record_sample :
  method Sample.ana = "POST"
  /\ method Sample.bia = "POST"
  /\ valid [] (POST Sample.ana) = true
  /\ valid [Ana] (POST Sample.bia) = true
  /\ exists rows db',
       (cadastrar Sample.ana ;;;
        cadastrar Sample.bia ;;;
        listar_usuarios Sample.get_request) [] =
         (Returns (Rendered Sample.get_request "listar_usuarios.html"
                     [("usuarios", QuerySetValue rows)]),
          db')
       /\ In Ana rows /\ In Bia rows.
Proof.
  refine (conj eq_refl (conj eq_refl (conj eq_refl (conj eq_refl _)))).
  exact (proj2 (listar_usuarios_lists_every_record
                  _ Sample.blank Sample.clean Sample.get_request [])
           Sample.ana Sample.bia eq_refl eq_refl eq_refl eq_refl).
Defined.

(** C4 on the sample: a GET against a table that holds Ana. *)
Lemma cadastrar_usuario_get_sample :
  method Sample.get_request = "GET"
  /\ exists form,
       cadastrar Sample.get_request [Ana] =
         (Returns (Rendered Sample.get_request "cadastrar_usuario.html"
                     [("form", FormValue form)]),
          [Ana])
       /\ form = UsuarioForm Sample.blank None
       /\ is_bound form = false
       /\ data form = []
       /\ cached_errors form = None.
Proof.
  refine (conj eq_refl _).
  apply (cadastrar_usuario_get_renders_unbound_form
           _ Sample.blank Sample.clean Sample.get_request [Ana]); reflexivity.
Defined.

(** C8 on the sample: a PUT against a table that holds Ana. *)
Lemma cadastrar_usuario_other_method_sample :
  method Sample.put_request <> "POST"
  /\ method Sample.put_request <> "GET"
  /\ cadastrar (with_method "GET" Sample.put_request) [Ana] =
       (Returns (Rendered (with_method "GET" Sample.put_request)
                   "cadastrar_usuario.html"
                   [("form", FormValue (UsuarioForm Sample.blank None))]),
        [Ana])
  /\ cadastrar Sample.put_request [Ana] =
       (Returns (Rendered Sample.put_request "cadastrar_usuario.html"
                   [("form", FormValue (UsuarioForm Sample.blank None))]),
        [Ana])
  /\ is_bound (UsuarioForm Sample.blank None) = false.
Proof.
  assert (Hp : method Sample.put_request <> "POST") by discriminate.
  assert (Hg : method Sample.put_request <> "GET") by discriminate.
  refine (conj Hp (conj Hg _)).
  exact (cadastrar_usuario_other_method_like_get
           _ Sample.blank Sample.clean Sample.put_request [Ana] Hp Hg).
Defined.

(** ** More runs on the sample model *)

Arguments is_redirect {Usuario} response.
Arguments serve {Usuario} Usuario_blank UsuarioForm_clean calls _.

Example serve_three :
  serve Sample.blank Sample.clean
    [(views_ref.cadastrar_usuario, Sample.ana);
     (views_ref.cadastrar_usuario, Sample.ana);
     (views_ref.listar_usuarios, Sample.get_request)] [Bia]
  = (Returns
       [HttpResponseRedirect "/usuarios/";
        Rendered Sample.ana "cadastrar_usuario.html"
          [("form",
            FormValue
              (mkForm true (POST Sample.ana)
                 (Some [("email", ["Usuario with this Email already exists."])])
                 Ana))];
        Rendered Sample.get_request "listar_usuarios.html"
          [("usuarios", QuerySetValue [Bia; Ana])]],
     [Bia; Ana]).
Proof. reflexivity. Qed.

(** X2 on the sample: Ana's registration changes the table that holds Bia. *)
Lemma only_valid_registration_post_writes_sample :
  snd (call_view Sample.blank Sample.clean views_ref.cadastrar_usuario
         Sample.ana [Bia]) <> [Bia]
  /\ views_ref.cadastrar_usuario = views_ref.cadastrar_usuario
  /\ method Sample.ana = "POST"
  /\ valid [Bia] (POST Sample.ana) = true.
Proof.
  assert (H : snd (call_view Sample.blank Sample.clean
                     views_ref.cadastrar_usuario Sample.ana [Bia]) <> [Bia])
    by (cbv; discriminate).
  refine (conj H _).
  exact (only_valid_registration_post_writes
           _ Sample.blank Sample.clean views_ref.cadastrar_usuario
           Sample.ana [Bia] H).
Defined.

(** X3 on the sample: Ana's submission sent to another path, with a query
    string and without cookies. *)
Lemma cadastrar_usuario_reads_method_and_POST_sample :
  method Sample.ana =
    method (mkRequest "POST" "/novo/" [("next", "/")] (POST Sample.ana) [] [])
  /\ POST Sample.ana =
       POST (mkRequest "POST" "/novo/" [("next", "/")] (POST Sample.ana) [] [])
  /\ exists response1 response2 db',
       cadastrar Sample.ana [Bia] = (Returns response1, db')
       /\ cadastrar
            (mkRequest "POST" "/novo/" [("next", "/")] (POST Sample.ana) [] [])
            [Bia] = (Returns response2, db')
       /\ without_request response1 = without_request response2.
Proof.
  refine (conj eq_refl (conj eq_refl _)).
  exact (cadastrar_usuario_reads_method_and_POST
           _ Sample.blank Sample.clean Sample.ana
           (mkRequest "POST" "/novo/" [("next", "/")] (POST Sample.ana) [] [])
           [Bia] eq_refl eq_refl).
Defined.

(** X5 on the sample: Ana registers and the redirect is followed. *)
Lemma valid_post_then_redirect_target_sample :
  method Sample.ana = "POST"
  /\ valid [Bia] (POST Sample.ana) = true
  /\ exists url v db',
       cadastrar Sample.ana [Bia] = (Returns (HttpResponseRedirect url), db')
       /\ urls.resolve url = Some v
       /\ call_view Sample.blank Sample.clean v Sample.get_request db' =
            (Returns (Rendered Sample.get_request "listar_usuarios.html"
                        [("usuarios",
                          QuerySetValue
                            ([Bia] ++ [submitted Sample.clean [Bia] (POST Sample.ana)]))]),
             db').
Proof.
  refine (conj eq_refl (conj eq_refl _)).
  exact (valid_post_then_redirect_target_lists_new_record
           _ Sample.blank Sample.clean Sample.ana Sample.get_request [Bia]
           eq_refl eq_refl).
Defined.

(** X6 at the two names of the URLconf. *)
Lemma urlpatterns_reverse_then_resolve_sample :
  urls.reverse "listar_usuarios" = Some "/usuarios/"
  /\ (exists u,
        In u urls.urlpatterns /\ urls.name u = "listar_usuarios"
        /\ urls.resolve "/usuarios/" = Some (urls.callback u))
  /\ urls.resolve "/cadastrar/" = Some views_ref.cadastrar_usuario
  /\ (exists viewname, urls.reverse viewname = Some "/cadastrar/").
Proof.
  refine (conj eq_refl (conj _ (conj eq_refl _))).
  - exact (proj1 urlpatterns_reverse_then_resolve
             "listar_usuarios" "/usuarios/" eq_refl).
  - exact (proj2 urlpatterns_reverse_then_resolve
             "/cadastrar/" views_ref.cadastrar_usuario eq_refl).
Defined.

